(** * Recent-transactions feed and owned-objects loader of the explorer

    A shallow embedding of two explorer components:

    - [RecentTxCard]: the latest-transactions card
      ([generateStartEndRange], [getRecentTransactions], the page query of
      [LatestTxCard], its rendering and its pause handler);
    - [OwnedObjects]: the owned-objects component
      (src/apps/explorer/src/components/ownedobjects/OwnedObjects.tsx).

    Conventions of the model.

    - A JavaScript [number] is a [Z].  Every number these components handle
      is a transaction count, a page size or a page index: an integer far
      inside the range where double arithmetic is exact.
    - A value that may be [undefined] is an [option].
    - An [async] function is a computation in [Promise]: it yields the list
      of RPC requests it issued, in order, and either the error it rejected
      with or the value it resolved to.
    - The RPC node is a record of responses ([JsonRpcProvider]). *)

From Stdlib Require Import ZArith List String Bool Lia DecimalString.
Import ListNotations.

Local Open Scope string_scope.
Local Open Scope list_scope.
Local Open Scope Z_scope.

(* ===================================================================== *)
(** * Exceptions and promises *)
(* ===================================================================== *)

Module Async.

(** What a rejected promise carries: an [Error] built by the component
    itself ([throw new Error(message)]), or the rejection of an RPC
    call. *)
Inductive Error : Type :=
| Thrown (message : string)
| Rejected (fault : string).

(** Synchronous code that may throw. *)
Definition Exc (A : Type) : Type := (Error + A)%type.

(** What the RPC node answers to a request: a fault or a value. *)
Definition Answer (A : Type) : Type := (string + A)%type.

Definition exc_bind {A B} (m : Exc A) (f : A -> Exc B) : Exc B :=
  match m with
  | inl e => inl e
  | inr a => f a
  end.

(** [Array.prototype.map] with a callback that may throw: elements are
    visited left to right and the first exception aborts the whole map. *)
Fixpoint exc_map {A B} (f : A -> Exc B) (l : list A) : Exc (list B) :=
  match l with
  | [] => inr []
  | a :: l' =>
      exc_bind (f a) (fun b =>
      exc_bind (exc_map f l') (fun bs => inr (b :: bs)))
  end.

Section Promises.
(** The requests sent to the RPC node. *)
Variable Request : Type.

Definition Promise (A : Type) : Type := (list Request * Exc A)%type.

Definition resolve {A} (a : A) : Promise A := ([], inr a).
Definition throw {A} (e : Error) : Promise A := ([], inl e).

(** One round trip: the request is sent, the node answers; a fault
    rejects the promise. *)
Definition call {A} (rq : Request) (answer : Answer A) : Promise A :=
  ([rq], match answer with
         | inl fault => inl (Rejected fault)
         | inr a => inr a
         end).

(** [await] / [.then]: the continuation runs only after the first
    promise resolved; a rejection skips it. *)
Definition bind {A B} (m : Promise A) (f : A -> Promise B) : Promise B :=
  match m with
  | (sent, inl e) => (sent, inl e)
  | (sent, inr a) => let (sent', r) := f a in (sent ++ sent', r)
  end.

(** Synchronous code run inside a [.then] callback. *)
Definition lift {A} (m : Exc A) : Promise A := ([], m).

Definition requests {A} (p : Promise A) : list Request := fst p.
Definition outcome {A} (p : Promise A) : Exc A := snd p.
End Promises.

Arguments resolve {Request A} a.
Arguments throw {Request A} e.
Arguments call {Request A} rq answer.
Arguments bind {Request A B} m f.
Arguments lift {Request A} m.
Arguments requests {Request A} p.
Arguments outcome {Request A} p.

End Async.

Import Async.

Declare Scope promise_scope.
Delimit Scope promise_scope with promise.
Notation "x <- m ;; k" := (bind m (fun x => k))
  (at level 61, m at next level, right associativity) : promise_scope.

Declare Scope exc_scope.
Delimit Scope exc_scope with exc.
Notation "x <- m ;; k" := (exc_bind m (fun x => k))
  (at level 61, m at next level, right associativity) : exc_scope.

(** [Math.max] on integers. *)
Definition Math_max (a b : Z) : Z := Z.max a b.

(** [Math.ceil(a / b)] on integers: the ceiling of the exact quotient.
    For [b <> 0] this is the value JavaScript computes; for [b = 0]
    JavaScript has no finite value (the quotient is an infinity), and the
    model is only used with a non-zero divisor. *)
Definition Math_ceil_div (a b : Z) : Z := - ((- a) / b).

(* ===================================================================== *)
(** * The latest-transactions card *)
(* ===================================================================== *)

Module RecentTxCard.

Definition Digest : Type := string.

Inductive Request : Type :=
| GetTotalTransactionNumber
| GetTransactionDigestsInRangeDeprecated (start end_ : Z)
| MultiGetTransactions (digests : list Digest).

Definition NUMBER_OF_TX_PER_PAGE : Z := 20.
Definition TRANSACTION_POLL_TIME_SECONDS : Z := 10.
Definition TRANSACTION_POLL_TIME : Z := TRANSACTION_POLL_TIME_SECONDS * 1000.
Definition AUTO_REFRESH_ID : string := "auto-refresh".

Record Range : Type := {
  startGatewayTxSeqNumber : Z;
  endGatewayTxSeqNumber : Z
}.

(** [pageNum && pageNum > 0 ? pageNum - 1 : 0]: an absent page number and
    the page number 0 are falsy. *)
Definition txPaged (pageNum : option Z) : Z :=
  match pageNum with
  | Some p => if negb (p =? 0) && (p >? 0) then p - 1 else 0
  | None => 0
  end.

Definition generateStartEndRange (txCount txNum : Z) (pageNum : option Z)
  : Range :=
  let endGatewayTxSeqNumber := txCount - txNum * txPaged pageNum in
  let startGatewayTxSeqNumber := Math_max (endGatewayTxSeqNumber - txNum) 0 in
  {| startGatewayTxSeqNumber := startGatewayTxSeqNumber;
     endGatewayTxSeqNumber := endGatewayTxSeqNumber |}.

(** [const maxTxPage = Math.ceil(count / txPerPage)] *)
Definition maxTxPage (count txPerPage : Z) : Z :=
  Math_ceil_div count txPerPage.

(** [const pg = pageIndex > maxTxPage ? maxTxPage : pageIndex] *)
Definition pg (count txPerPage pageIndex : Z) : Z :=
  if pageIndex >? maxTxPage count txPerPage
  then maxTxPage count txPerPage
  else pageIndex.

(** The initial page index,
    [parseInt(searchParams.get('p') || '1', 10) || 1], as a function of
    what [parseInt] made of the query parameter ([None] is [NaN]; a missing
    parameter parses as 1).  Zero and [NaN] are falsy and give 1; a
    negative number is kept. *)
Definition initialPageIndex (parsed : option Z) : Z :=
  match parsed with
  | Some n => if n =? 0 then 1 else n
  | None => 1
  end.

(** [`Auto-refreshing on - every ${TRANSACTION_POLL_TIME_SECONDS} seconds`] *)
Definition autoRefreshOnMessage : string :=
  ("Auto-refreshing on - every "
     ++ NilZero.string_of_int (Z.to_int TRANSACTION_POLL_TIME_SECONDS)
     ++ " seconds")%string.

(** ** Pause handling *)

Inductive Effect : Type :=
| RefetchCount
| ToastSuccess (message id : string).

Definition is_refetch (e : Effect) : bool :=
  match e with
  | RefetchCount => true
  | ToastSuccess _ _ => false
  end.

(** [refetchInterval: paused ? false : TRANSACTION_POLL_TIME]; [None] is
    [false], no timer. *)
Definition refetchInterval (paused : bool) : option Z :=
  if paused then None else Some TRANSACTION_POLL_TIME.

(** The handler's effects, in program order, and the next value of
    [paused]. *)
Definition handlePauseChange (paused : bool) : list Effect * bool :=
  ((if paused
    then [RefetchCount; ToastSuccess autoRefreshOnMessage AUTO_REFRESH_ID]
    else [ToastSuccess "Auto-refresh paused" AUTO_REFRESH_ID]),
   negb paused).

(** What can happen to the card: the play/pause control is pressed, or a
    poll interval elapses.  The query library refetches the count on a
    tick only while [refetchInterval] is a number. *)
Inductive Event : Type :=
| PlayPauseChange
| IntervalElapsed.

Definition step (paused : bool) (ev : Event) : list Effect * bool :=
  match ev with
  | PlayPauseChange => handlePauseChange paused
  | IntervalElapsed =>
      (match refetchInterval paused with
       | Some _ => [RefetchCount]
       | None => []
       end, paused)
  end.

Fixpoint run (paused : bool) (evs : list Event) : list Effect * bool :=
  match evs with
  | [] => ([], paused)
  | ev :: evs' =>
      let (out, paused') := step paused ev in
      let (outs, final) := run paused' evs' in
      (out ++ outs, final)
  end.

Definition refetches (out : list Effect) : nat :=
  List.length (filter is_refetch out).

(** ** Query results and rendering *)

Inductive QueryStatus : Type :=
| status_error
| status_loading
| status_success.

Record UseQueryResult (A : Type) : Type := {
  data : option A;
  error : option Error;
  status : QueryStatus
}.
Arguments data {A} _.
Arguments error {A} _.
Arguments status {A} _.

Definition isError {A} (q : UseQueryResult A) : bool :=
  match status q with
  | status_error => true
  | _ => false
  end.

(** The result object once the query function's promise has settled.
    (The query library may run a failing query function again before
    it gives up; every run is the same computation.) *)
Definition settled {A} (p : Promise Request A) : UseQueryResult A :=
  match outcome p with
  | inr a => {| data := Some a; error := None; status := status_success |}
  | inl e => {| data := None; error := Some e; status := status_error |}
  end.

Section Feed.
(** The hydrated transaction record ([TxnData] of ./TxCardUtils). *)
Variable TxnData : Type.

(** The RPC node as the card sees it. [transaction] is the record the
    ledger holds for a digest; [multiGetFault] tells whether a batched
    lookup is rejected. *)
Record JsonRpcProvider : Type := {
  totalTransactionNumber : Answer Z;
  transactionDigestsInRange : Z -> Z -> Answer (list Digest);
  transaction : Digest -> TxnData;
  multiGetFault : list Digest -> option string
}.

Definition getTotalTransactionNumber (rpc : JsonRpcProvider)
  : Promise Request Z :=
  call GetTotalTransactionNumber (totalTransactionNumber rpc).

Definition getTransactionDigestsInRangeDeprecated (rpc : JsonRpcProvider)
  (start end_ : Z) : Promise Request (list Digest) :=
  call (GetTransactionDigestsInRangeDeprecated start end_)
       (transactionDigestsInRange rpc start end_).

(** Modelled from the spec: [getDataOnTxDigests] is imported from
    ./TxCardUtils, which is not part of the sources at hand.  Following
    the feed fetcher's steps 5 and 6: every digest is hydrated into a
    full record by a single batched lookup, and hydration does not
    reorder. *)
Definition getDataOnTxDigests (rpc : JsonRpcProvider)
  (digests : list Digest) : Promise Request (list TxnData) :=
  call (MultiGetTransactions digests)
       (match multiGetFault rpc digests with
        | Some fault => inl fault
        | None => inr (map (transaction rpc) digests)
        end).

Definition getRecentTransactions (rpc : JsonRpcProvider)
  (totalTx txNum : Z) (pageNum : option Z)
  : Promise Request (list TxnData) :=
  let r := generateStartEndRange totalTx txNum pageNum in
  if endGatewayTxSeqNumber r <? 0
  then throw (Thrown "Invalid transaction number")
  else
    (transactionDigests <-
       getTransactionDigestsInRangeDeprecated rpc
         (startGatewayTxSeqNumber r) (endGatewayTxSeqNumber r) ;;
     getDataOnTxDigests rpc (rev transactionDigests))%promise.

(** The query function of [transactionQuery].  [count] is
    [countQuery.data]; [!count] holds for [undefined] and for 0. *)
Definition transactionQuery (rpc : JsonRpcProvider)
  (count : option Z) (txPerPage pageIndex : Z)
  : Promise Request (list TxnData) :=
  match count with
  | None => throw (Thrown "No transactions found")
  | Some count =>
      if count =? 0
      then throw (Thrown "No transactions found")
      else getRecentTransactions rpc count txPerPage
             (Some (pg count txPerPage pageIndex))
  end.

Inductive View : Type :=
| Banner (message : string)
| TableCard (rows : list TxnData)
| PlaceholderTable (rowCount : Z).

(** The component's return value; the table rows stand for
    [genTableDataFromTxData(transactionQuery.data)]. *)
Definition render (countQuery : UseQueryResult Z)
  (transactionQuery : UseQueryResult (list TxnData)) (txPerPage : Z)
  : View :=
  if isError countQuery then Banner "No transactions found."
  else if isError transactionQuery
  then Banner "There was an issue getting the latest transactions."
  else
    match data transactionQuery with
    | Some rows => TableCard rows
    | None => PlaceholderTable txPerPage
    end.

(** The card once both queries have settled: the count query runs
    first, the page query is enabled when the count query is fetched.
    Yields every request sent and what is shown. *)
Definition LatestTxCard (rpc : JsonRpcProvider) (txPerPage pageIndex : Z)
  : list Request * View :=
  let countPromise := getTotalTransactionNumber rpc in
  let countQuery := settled countPromise in
  let pagePromise :=
    transactionQuery rpc (data countQuery) txPerPage pageIndex in
  (requests countPromise ++ requests pagePromise,
   render countQuery (settled pagePromise) txPerPage).

Definition is_range_request (rq : Request) : bool :=
  match rq with
  | GetTransactionDigestsInRangeDeprecated _ _ => true
  | _ => false
  end.

End Feed.

Arguments totalTransactionNumber {TxnData} _.
Arguments transactionDigestsInRange {TxnData} _ _ _.
Arguments transaction {TxnData} _ _.
Arguments multiGetFault {TxnData} _ _.
Arguments getTotalTransactionNumber {TxnData} _.
Arguments getTransactionDigestsInRangeDeprecated {TxnData} _ _ _.
Arguments getDataOnTxDigests {TxnData} _ _.
Arguments getRecentTransactions {TxnData} _ _ _ _.
Arguments transactionQuery {TxnData} _ _ _ _.
Arguments render {TxnData} _ _ _.
Arguments LatestTxCard {TxnData} _ _ _.
Arguments Banner {TxnData} _.
Arguments TableCard {TxnData} _.
Arguments PlaceholderTable {TxnData} _.

(** ** Counting what a run of events does *)

Definition is_toast (e : Effect) : bool :=
  match e with
  | ToastSuccess _ id => String.eqb id AUTO_REFRESH_ID
  | RefetchCount => false
  end.

Definition is_press (ev : Event) : bool :=
  match ev with
  | PlayPauseChange => true
  | IntervalElapsed => false
  end.

Definition presses (evs : list Event) : nat :=
  List.length (filter is_press evs).

End RecentTxCard.

(* ===================================================================== *)
(** * The owned-objects component *)
(* ===================================================================== *)

Module OwnedObjects.

Inductive Request : Type :=
| GetOwnedObjects (owner : string)
| GetDynamicFields (parentId : string)
| MultiGetObjects (ids : list string) (showType showContent showDisplay : bool).

(** One row of the view ([DataType] is an array of these). *)
Record OwnedObjectRecord : Type := {
  id : string;
  Type_ : string;
  _isCoin : bool;
  display : option string;
  balance : option Z;
  name : option string
}.

Definition DataType : Type := list OwnedObjectRecord.

Definition DATATYPE_DEFAULT : DataType :=
  [ {| id := EmptyString; Type_ := EmptyString; _isCoin := false;
       display := None; balance := None; name := None |} ].

(** The three [useState] cells. *)
Record State : Type := {
  results : DataType;
  isLoaded : bool;
  isFail : bool
}.

Definition initialState : State :=
  {| results := DATATYPE_DEFAULT; isLoaded := false; isFail := false |}.

Definition setResults (v : DataType) (s : State) : State :=
  {| results := v; isLoaded := isLoaded s; isFail := isFail s |}.
Definition setIsLoaded (v : bool) (s : State) : State :=
  {| results := results s; isLoaded := v; isFail := isFail s |}.
Definition setIsFail (v : bool) (s : State) : State :=
  {| results := results s; isLoaded := isLoaded s; isFail := v |}.

Inductive View : Type :=
| NoOwnedObjects
| OwnedObjectView (results : DataType)
| Loading.

Definition render (s : State) : View :=
  if isFail s then NoOwnedObjects
  else if isLoaded s then OwnedObjectView (results s)
  else Loading.

Section Loader.
(** Display metadata and the remaining content of an object, as the
    SDK delivers them. *)
Variables Display Content : Type.

(** [resp.details]: an object, which may carry a [display] key, or a
    primitive (a bare object id). *)
Inductive Details : Type :=
| DetailsObject (display : option Display) (content : Content)
| DetailsPrimitive (objectId : string).

Record SuiObjectResponse : Type := {
  status : string;
  details : Details
}.

Record DynamicFieldInfo : Type := { objectId : string }.

(** The two response shapes; [is(objects, PaginatedObjectsResponse)]
    tells them apart. *)
Inductive ObjectsResponse : Type :=
| PaginatedObjectsResponse (data : list SuiObjectResponse)
| DynamicFieldPage (data : list DynamicFieldInfo).

Record JsonRpcProvider : Type := {
  ownedObjects : string -> Answer ObjectsResponse;
  dynamicFields : string -> Answer ObjectsResponse;
  objects : list string -> Answer (list SuiObjectResponse)
}.

(** Helpers of the SDK and of ../../utils ([Coin_isCoin] is
    [Coin.isCoin], [Coin_getBalance] is [Coin.getBalance]); each may
    throw. *)
Record Helpers : Type := {
  getObjectId : SuiObjectResponse -> Exc string;
  parseImageURL : option Display -> Exc string;
  parseObjectType : SuiObjectResponse -> Exc string;
  extractName : option Display -> Exc (option string);
  transformURL : string -> Exc string;
  Coin_isCoin : SuiObjectResponse -> Exc bool;
  Coin_getBalance : SuiObjectResponse -> Exc (option Z)
}.

Variable sdk : Helpers.

Definition getOwnedObjects (rpc : JsonRpcProvider) (owner : string)
  : Promise Request ObjectsResponse :=
  call (GetOwnedObjects owner) (ownedObjects rpc owner).

Definition getDynamicFields (rpc : JsonRpcProvider) (parentId : string)
  : Promise Request ObjectsResponse :=
  call (GetDynamicFields parentId) (dynamicFields rpc parentId).

Definition multiGetObjects (rpc : JsonRpcProvider) (ids : list string)
  : Promise Request (list SuiObjectResponse) :=
  call (MultiGetObjects ids true true true) (objects rpc ids).

(** The first [.then] callback up to the multi-get: the ids of either
    response shape. *)
Definition extractIds (objects : ObjectsResponse) : Exc (list string) :=
  match objects with
  | PaginatedObjectsResponse data => exc_map (getObjectId sdk) data
  | DynamicFieldPage data => inr (map objectId data)
  end.

(** [({ status }) => status === 'Exists'] *)
Definition statusExists (resp : SuiObjectResponse) : bool :=
  String.eqb (status resp) "Exists".

(** [typeof resp.details === 'object' && 'display' in resp.details
     ? resp.details.display : undefined] *)
Definition displayMeta (resp : SuiObjectResponse) : option Display :=
  match details resp with
  | DetailsObject display _ => display
  | DetailsPrimitive _ => None
  end.

(** The callback of [.map]; a string is truthy when it is not empty. *)
Definition toRecord (resp : SuiObjectResponse) : Exc OwnedObjectRecord :=
  (url <- parseImageURL sdk (displayMeta resp) ;;
   id <- getObjectId sdk resp ;;
   type <- parseObjectType sdk resp ;;
   isCoin <- Coin_isCoin sdk resp ;;
   display <- (if String.eqb url EmptyString
               then inr None
               else u <- transformURL sdk url ;; inr (Some u)) ;;
   balance <- Coin_getBalance sdk resp ;;
   name <- extractName sdk (displayMeta resp) ;;
   inr {| id := id; Type_ := type; _isCoin := isCoin;
          display := display; balance := balance;
          name := Some (match name with
                        | Some n => n
                        | None => EmptyString
                        end) |})%exc.

(** The promise chain of the effect, up to the value handed to
    [setResults]. *)
Definition load (rpc : JsonRpcProvider) (id : string) (byAddress : bool)
  : Promise Request DataType :=
  (objects <- (if byAddress
               then getOwnedObjects rpc id
               else getDynamicFields rpc id) ;;
   ids <- lift (extractIds objects) ;;
   results <- multiGetObjects rpc ids ;;
   lift (exc_map toRecord (filter statusExists results)))%promise.

(** The states the component goes through when the effect runs from
    state [s]: the reset ([setIsFail(false)], [setIsLoaded(false)],
    applied together), then either [setResults] followed by
    [setIsLoaded(true)], or the [catch] handler's [setIsFail(true)].
    This is one run of the effect, with no other run in flight: the
    effect has no cleanup, and the callbacks of a run superseded by a
    change of [id], [byAddress] or [rpc] are outside this model. *)
Definition useEffect (rpc : JsonRpcProvider) (id : string)
  (byAddress : bool) (s : State) : list State :=
  let reset := setIsLoaded false (setIsFail false s) in
  match outcome (load rpc id byAddress) with
  | inr rs =>
      [reset; setResults rs reset; setIsLoaded true (setResults rs reset)]
  | inl _ =>
      [reset; setIsFail true reset]
  end.

(** The state the component rests in once the promise chain settled. *)
Definition loaded (rpc : JsonRpcProvider) (id : string)
  (byAddress : bool) (s : State) : State :=
  last (useEffect rpc id byAddress s) s.

(** Where a load can fail, and the error it then rejects with. *)
Inductive FailsAt (rpc : JsonRpcProvider) (id : string)
  (byAddress : bool) : Error -> Prop :=
| FailsAtQuery (fault : string) :
    (if byAddress then ownedObjects rpc id else dynamicFields rpc id)
      = inl fault ->
    FailsAt rpc id byAddress (Rejected fault)
| FailsAtIdExtraction (objs : ObjectsResponse) (e : Error) :
    (if byAddress then ownedObjects rpc id else dynamicFields rpc id)
      = inr objs ->
    extractIds objs = inl e ->
    FailsAt rpc id byAddress e
| FailsAtMultiGet (objs : ObjectsResponse) (ids : list string)
    (fault : string) :
    (if byAddress then ownedObjects rpc id else dynamicFields rpc id)
      = inr objs ->
    extractIds objs = inr ids ->
    objects rpc ids = inl fault ->
    FailsAt rpc id byAddress (Rejected fault)
| FailsAtHydration (objs : ObjectsResponse) (ids : list string)
    (resps : list SuiObjectResponse) (e : Error) :
    (if byAddress then ownedObjects rpc id else dynamicFields rpc id)
      = inr objs ->
    extractIds objs = inr ids ->
    objects rpc ids = inr resps ->
    exc_map toRecord (filter statusExists resps) = inl e ->
    FailsAt rpc id byAddress e.

End Loader.

Arguments DetailsObject {Display Content} _ _.
Arguments DetailsPrimitive {Display Content} _.
Arguments status {Display Content} _.
Arguments details {Display Content} _.
Arguments PaginatedObjectsResponse {Display Content} _.
Arguments DynamicFieldPage {Display Content} _.
Arguments ownedObjects {Display Content} _ _.
Arguments dynamicFields {Display Content} _ _.
Arguments objects {Display Content} _ _.
Arguments getObjectId {Display Content} _ _.
Arguments parseImageURL {Display Content} _ _.
Arguments parseObjectType {Display Content} _ _.
Arguments extractName {Display Content} _ _.
Arguments transformURL {Display Content} _ _.
Arguments Coin_isCoin {Display Content} _ _.
Arguments Coin_getBalance {Display Content} _ _.
Arguments getOwnedObjects {Display Content} _ _.
Arguments getDynamicFields {Display Content} _ _.
Arguments multiGetObjects {Display Content} _ _.
Arguments extractIds {Display Content} _ _.
Arguments statusExists {Display Content} _.
Arguments displayMeta {Display Content} _.
Arguments toRecord {Display Content} _ _.
Arguments load {Display Content} _ _ _ _.
Arguments useEffect {Display Content} _ _ _ _ _.
Arguments loaded {Display Content} _ _ _ _ _.
Arguments FailsAt {Display Content} _ _ _ _ _.

End OwnedObjects.

(* ===================================================================== *)
(** * Concrete nodes used to run the components *)
(* ===================================================================== *)

Module Samples.

Definition digestOf (n : Z) : RecentTxCard.Digest :=
  ("tx" ++ NilZero.string_of_int (Z.to_int n))%string.

(** The sequence numbers [start], [start + 1], ..., [end_ - 1]. *)
Definition seqNumbers (start end_ : Z) : list Z :=
  map (fun k => start + Z.of_nat k) (seq 0 (Z.to_nat (end_ - start))).

(** A node whose ledger holds [total] transactions, the one with
    sequence number [n] having digest [digestOf n]; records are
    strings. *)
Definition ledger (total : Z) : RecentTxCard.JsonRpcProvider string :=
  {| RecentTxCard.totalTransactionNumber := inr total;
     RecentTxCard.transactionDigestsInRange :=
       fun start end_ => inr (map digestOf (seqNumbers start end_));
     RecentTxCard.transaction := fun d => ("record of " ++ d)%string;
     RecentTxCard.multiGetFault := fun _ => None |}.

Import OwnedObjects.

Definition existing : SuiObjectResponse string string :=
  {| status := "Exists";
     details := DetailsObject (Some "ipfs://image") "0x1" |}.

Definition missing : SuiObjectResponse string string :=
  {| status := "NotFound"; details := DetailsPrimitive "0x2" |}.

(** Helpers that read the content as the object id and refuse a response
    without object data. *)
Definition sdk : Helpers string string :=
  {| getObjectId := fun resp =>
       match details resp with
       | DetailsObject _ oid => inr oid
       | DetailsPrimitive oid => inr oid
       end;
     parseImageURL := fun d =>
       match d with Some url => inr url | None => inr EmptyString end;
     parseObjectType := fun resp =>
       match details resp with
       | DetailsObject _ _ => inr "0x2::coin::Coin"
       | DetailsPrimitive _ => inl (Thrown "no object data")
       end;
     extractName := fun _ => inr None;
     transformURL := fun url => inr ("https://gateway/" ++ url)%string;
     Coin_isCoin := fun _ => inr true;
     Coin_getBalance := fun _ => inr (Some 7) |}.

(** A node where the address "0xowner" owns two ids, one of which no
    longer exists. *)
Definition node : JsonRpcProvider string string :=
  {| ownedObjects := fun _ => inr (PaginatedObjectsResponse [existing; missing]);
     dynamicFields := fun _ => inl "unknown parent";
     objects := fun _ => inr [existing; missing] |}.

(** A node that cannot be reached. *)
Definition offline : RecentTxCard.JsonRpcProvider string :=
  {| RecentTxCard.totalTransactionNumber := inl "network error";
     RecentTxCard.transactionDigestsInRange := fun _ _ => inl "network error";
     RecentTxCard.transaction := fun d => d;
     RecentTxCard.multiGetFault := fun _ => Some "network error" |}.

(** A node that knows its count but rejects every digest-range request. *)
Definition noRanges (total : Z) : RecentTxCard.JsonRpcProvider string :=
  {| RecentTxCard.totalTransactionNumber := inr total;
     RecentTxCard.transactionDigestsInRange :=
       fun _ _ => inl "range unavailable";
     RecentTxCard.transaction := fun d => d;
     RecentTxCard.multiGetFault := fun _ => None |}.

(** Helpers that always throw. *)
Definition throwingSdk : Helpers string string :=
  {| getObjectId := fun _ => inl (Thrown "getObjectId");
     parseImageURL := fun _ => inl (Thrown "parseImageURL");
     parseObjectType := fun _ => inl (Thrown "parseObjectType");
     extractName := fun _ => inl (Thrown "extractName");
     transformURL := fun _ => inl (Thrown "transformURL");
     Coin_isCoin := fun _ => inl (Thrown "isCoin");
     Coin_getBalance := fun _ => inl (Thrown "getBalance") |}.

(** A node where the parent "0xparent" has two dynamic fields, both of
    which are gone. *)
Definition graveyard : JsonRpcProvider string string :=
  {| ownedObjects := fun _ => inl "unknown owner";
     dynamicFields := fun _ =>
       inr (DynamicFieldPage [ {| objectId := "0x2" |}; {| objectId := "0x3" |} ]);
     objects := fun ids =>
       inr (map (fun oid => {| status := "NotFound";
                               details := DetailsPrimitive oid |}) ids) |}.

End Samples.

(* ===================================================================== *)
(** * Properties of the latest-transactions card *)
(* ===================================================================== *)

Module RecentTxCardFacts.

Import RecentTxCard.

(** ** Arithmetic of the window and of the clamp *)

Lemma txPaged_some (p : Z) : txPaged (Some p) = Z.max (p - 1) 0.
Proof.
  unfold txPaged.
  destruct (Z.eqb_spec p 0) as [-> | Hp]; simpl; [reflexivity |].
  destruct (Z.gtb_spec p 0); lia.
Qed.

Lemma txPaged_first_page (pageNum : option Z) :
  pageNum = None \/ (exists p, pageNum = Some p /\ p <= 1) ->
  txPaged pageNum = 0.
Proof.
  intros [-> | (p & -> & Hp)]; [reflexivity |].
  rewrite txPaged_some. lia.
Qed.

(** The ceiling quotient is the least multiplier that covers [a]. *)
Lemma Math_ceil_div_bounds (a b : Z) :
  0 < b ->
  b * (Math_ceil_div a b - 1) < a <= b * Math_ceil_div a b.
Proof.
  intros Hb. unfold Math_ceil_div.
  pose proof (Z.div_mod (- a) b ltac:(lia)) as Hdm.
  pose proof (Z.mod_pos_bound (- a) b Hb) as Hr.
  nia.
Qed.

Lemma Math_ceil_div_pos (a b : Z) :
  1 <= a -> 0 < b -> 1 <= Math_ceil_div a b.
Proof.
  intros Ha Hb. pose proof (Math_ceil_div_bounds a b Hb). nia.
Qed.

Lemma Math_ceil_div_zero (b : Z) : Math_ceil_div 0 b = 0.
Proof. unfold Math_ceil_div. change (- 0) with 0. now rewrite Zdiv_0_l. Qed.

Lemma Math_ceil_div_nonneg (a b : Z) :
  0 <= a -> 0 < b -> 0 <= Math_ceil_div a b.
Proof.
  intros Ha Hb. pose proof (Math_ceil_div_bounds a b Hb). nia.
Qed.

Lemma pg_min (count txPerPage pageIndex : Z) :
  pg count txPerPage pageIndex = Z.min pageIndex (maxTxPage count txPerPage).
Proof.
  unfold pg. destruct (Z.gtb_spec pageIndex (maxTxPage count txPerPage)); lia.
Qed.

Lemma generateStartEndRange_some (txCount txNum p : Z) :
  generateStartEndRange txCount txNum (Some p) =
  {| startGatewayTxSeqNumber :=
       Z.max (txCount - txNum * Z.max (p - 1) 0 - txNum) 0;
     endGatewayTxSeqNumber := txCount - txNum * Z.max (p - 1) 0 |}.
Proof.
  unfold generateStartEndRange, Math_max. rewrite txPaged_some. reflexivity.
Qed.

Section WithRecords.
Context {TxnData : Type}.
Implicit Types rpc : JsonRpcProvider TxnData.

(** ** Running the fetch *)

Lemma getRecentTransactions_out_of_range rpc totalTx txNum pageNum :
  endGatewayTxSeqNumber (generateStartEndRange totalTx txNum pageNum) < 0 ->
  getRecentTransactions rpc totalTx txNum pageNum =
  ([], inl (Thrown "Invalid transaction number")).
Proof.
  intros H. unfold getRecentTransactions.
  destruct (Z.ltb_spec
              (endGatewayTxSeqNumber
                 (generateStartEndRange totalTx txNum pageNum)) 0);
    [reflexivity | lia].
Qed.

(** Within range, the digest-range request is the first thing sent. *)
Lemma getRecentTransactions_in_range rpc totalTx txNum pageNum :
  0 <= endGatewayTxSeqNumber (generateStartEndRange totalTx txNum pageNum) ->
  let r := generateStartEndRange totalTx txNum pageNum in
  getRecentTransactions rpc totalTx txNum pageNum =
  (transactionDigests <-
     getTransactionDigestsInRangeDeprecated rpc
       (startGatewayTxSeqNumber r) (endGatewayTxSeqNumber r) ;;
   getDataOnTxDigests rpc (rev transactionDigests))%promise.
Proof.
  intros H r. unfold getRecentTransactions. fold r.
  destruct (Z.ltb_spec (endGatewayTxSeqNumber r) 0);
    [subst r; lia | reflexivity].
Qed.

Lemma getRecentTransactions_never_throws_in_range
  rpc totalTx txNum pageNum (message : string) :
  0 <= endGatewayTxSeqNumber (generateStartEndRange totalTx txNum pageNum) ->
  outcome (getRecentTransactions rpc totalTx txNum pageNum)
    <> inl (Thrown message).
Proof.
  intros H. rewrite getRecentTransactions_in_range by exact H.
  unfold getTransactionDigestsInRangeDeprecated, getDataOnTxDigests,
    call, bind, outcome.
  destruct (transactionDigestsInRange rpc _ _) as [fault | digests];
    simpl; [discriminate |].
  destruct (multiGetFault rpc (rev digests)); simpl; discriminate.
Qed.

Lemma getRecentTransactions_sends_in_range rpc totalTx txNum pageNum :
  0 <= endGatewayTxSeqNumber (generateStartEndRange totalTx txNum pageNum) ->
  requests (getRecentTransactions rpc totalTx txNum pageNum) <> [].
Proof.
  intros H. rewrite getRecentTransactions_in_range by exact H.
  unfold getTransactionDigestsInRangeDeprecated, getDataOnTxDigests,
    call, bind, requests.
  destruct (transactionDigestsInRange rpc _ _) as [fault | digests];
    simpl; [discriminate |].
  destruct (multiGetFault rpc (rev digests)); simpl; discriminate.
Qed.

(** ** The claims that run the fetch *)

(** C1.  When the count query returned zero, the page query throws
    "No transactions found" before anything is sent: it ends in the
    error state carrying that message, and the card has issued the count
    request and nothing else, in particular no digest-range request.
    (What the card then renders is the banner of a failed page query.) *)
Theorem zero_count_fails_before_page_fetch rpc (txPerPage pageIndex : Z) :
  totalTransactionNumber rpc = inr 0 ->
  transactionQuery rpc (Some 0) txPerPage pageIndex
    = ([], inl (Thrown "No transactions found"))
  /\ status (settled (transactionQuery rpc (Some 0) txPerPage pageIndex))
     = status_error
  /\ error (settled (transactionQuery rpc (Some 0) txPerPage pageIndex))
     = Some (Thrown "No transactions found")
  /\ LatestTxCard rpc txPerPage pageIndex
     = ([GetTotalTransactionNumber],
        Banner "There was an issue getting the latest transactions.")
  /\ filter is_range_request (fst (LatestTxCard rpc txPerPage pageIndex))
     = [].
Proof.
  intros Hcount.
  assert (Hcard : LatestTxCard rpc txPerPage pageIndex
            = ([GetTotalTransactionNumber],
               Banner "There was an issue getting the latest transactions.")).
  { unfold LatestTxCard, getTotalTransactionNumber, call, settled, outcome.
    rewrite Hcount. reflexivity. }
  repeat split; try reflexivity; try exact Hcard.
  rewrite Hcard. reflexivity.
Qed.

(** C3.  For every total count, page size and page index the window
    has [end = totalCount - pageSize * max(pageIndex - 1, 0)] and
    [start = max(end - pageSize, 0)]; the fetch rejects with the
    out-of-range error "Invalid transaction number" exactly when
    [end < 0], and it does so having sent no request. *)
Theorem window_formula_and_out_of_range
  rpc (totalCount pageSize pageIndex : Z) :
  endGatewayTxSeqNumber
    (generateStartEndRange totalCount pageSize (Some pageIndex))
    = totalCount - pageSize * Z.max (pageIndex - 1) 0
  /\ startGatewayTxSeqNumber
       (generateStartEndRange totalCount pageSize (Some pageIndex))
     = Z.max (endGatewayTxSeqNumber
                (generateStartEndRange totalCount pageSize (Some pageIndex))
              - pageSize) 0
  /\ (outcome (getRecentTransactions rpc totalCount pageSize (Some pageIndex))
        = inl (Thrown "Invalid transaction number")
      <-> endGatewayTxSeqNumber
            (generateStartEndRange totalCount pageSize (Some pageIndex)) < 0)
  /\ (getRecentTransactions rpc totalCount pageSize (Some pageIndex)
        = ([], inl (Thrown "Invalid transaction number"))
      <-> endGatewayTxSeqNumber
            (generateStartEndRange totalCount pageSize (Some pageIndex)) < 0).
Proof.
  set (w := generateStartEndRange totalCount pageSize (Some pageIndex)).
  assert (Hw : w = generateStartEndRange totalCount pageSize (Some pageIndex))
    by reflexivity.
  rewrite generateStartEndRange_some in Hw.
  split; [rewrite Hw; reflexivity |].
  split; [rewrite Hw; reflexivity |].
  clear Hw.
  split; split; intros H.
  - destruct (Z.lt_ge_cases (endGatewayTxSeqNumber w) 0) as [Hlt | Hge];
      [exact Hlt |].
    exfalso.
    exact (getRecentTransactions_never_throws_in_range
             rpc totalCount pageSize (Some pageIndex) _ Hge H).
  - subst w. rewrite getRecentTransactions_out_of_range by exact H.
    reflexivity.
  - destruct (Z.lt_ge_cases (endGatewayTxSeqNumber w) 0) as [Hlt | Hge];
      [exact Hlt |].
    exfalso.
    apply (getRecentTransactions_sends_in_range
             rpc totalCount pageSize (Some pageIndex) Hge).
    rewrite H. reflexivity.
  - subst w. apply getRecentTransactions_out_of_range. exact H.
Qed.

(** C5.  When the transport answers the digest-range request with
    [d1 .. dn] (ascending) and the batched lookup goes through, the
    fetch resolves to [hydrate dn .. hydrate d1]: the digests are
    reversed, then handed to hydration in one batch, which keeps their
    order. *)
Theorem fetched_records_are_latest_first
  rpc (totalTx txNum : Z) (pageNum : option Z) (digests : list Digest) :
  0 <= endGatewayTxSeqNumber (generateStartEndRange totalTx txNum pageNum) ->
  transactionDigestsInRange rpc
    (startGatewayTxSeqNumber (generateStartEndRange totalTx txNum pageNum))
    (endGatewayTxSeqNumber (generateStartEndRange totalTx txNum pageNum))
    = inr digests ->
  multiGetFault rpc (rev digests) = None ->
  getRecentTransactions rpc totalTx txNum pageNum
    = ([GetTransactionDigestsInRangeDeprecated
          (startGatewayTxSeqNumber
             (generateStartEndRange totalTx txNum pageNum))
          (endGatewayTxSeqNumber
             (generateStartEndRange totalTx txNum pageNum));
        MultiGetTransactions (rev digests)],
       inr (rev (map (transaction rpc) digests))).
Proof.
  intros Hend Hdigests Hlookup.
  rewrite getRecentTransactions_in_range by exact Hend.
  unfold getTransactionDigestsInRangeDeprecated, getDataOnTxDigests,
    call, bind.
  rewrite Hdigests, Hlookup, map_rev. reflexivity.
Qed.

End WithRecords.

(** ** The card at a zero count *)

Lemma zero_count_fails_before_page_fetch_witness :
  totalTransactionNumber (Samples.ledger 0) = inr 0
  /\ error (settled (transactionQuery (Samples.ledger 0) (Some 0)
                       NUMBER_OF_TX_PER_PAGE 1))
     = Some (Thrown "No transactions found")
  /\ filter is_range_request
       (fst (LatestTxCard (Samples.ledger 0) NUMBER_OF_TX_PER_PAGE 1))
     = [].
Proof.
  split; [reflexivity |].
  destruct (zero_count_fails_before_page_fetch
              (Samples.ledger 0) NUMBER_OF_TX_PER_PAGE 1 eq_refl)
    as (_ & _ & Herror & _ & Hsent).
  split; [exact Herror | exact Hsent].
Defined.

(** ** The reversal law on a ledger of three transactions *)

Lemma fetched_records_are_latest_first_witness :
  getRecentTransactions (Samples.ledger 3) 3 NUMBER_OF_TX_PER_PAGE (Some 1)
  = ([GetTransactionDigestsInRangeDeprecated 0 3;
      MultiGetTransactions ["tx2"; "tx1"; "tx0"]],
     inr ["record of tx2"; "record of tx1"; "record of tx0"]).
Proof.
  apply (fetched_records_are_latest_first
           (Samples.ledger 3) 3 NUMBER_OF_TX_PER_PAGE (Some 1)
           ["tx0"; "tx1"; "tx2"]).
  - vm_compute. discriminate.
  - reflexivity.
  - reflexivity.
Defined.

(** ** The clamp *)

(** C2, as first stated, fails for a page index below 1: with 45
    transactions and pages of 20, the query parameter [p=-3] gives the
    page index -3, which the clamp leaves as it is. *)
Lemma clamp_negative_page_counterexample :
  initialPageIndex (Some (-3)) = -3
  /\ pg 45 20 (-3) = -3
  /\ ~ (0 <= 45 -> 0 < 20 ->
        pg 45 20 (-3) = Z.min (-3) (Z.max 1 (Math_ceil_div 45 20))
        /\ 1 <= pg 45 20 (-3) <= Z.max 1 (Math_ceil_div 45 20)).
Proof.
  split; [reflexivity |]. split; [reflexivity |].
  intros H. destruct H as [_ [Hlow _]]; [lia | lia |].
  vm_compute in Hlow. apply Hlow. reflexivity.
Qed.

(** C2, as amended.  Whenever the clamp is evaluated (the count is at
    least 1; a zero count fails the query before) and the page size is
    positive, it returns [min(requestedPage, maxPage)] where
    [maxPage = ceil(totalCount / pageSize)] is at least 1.  For a
    requested page of at least 1 the result lies in [[1, maxPage]]; a
    requested page below 1 is returned unchanged, and the window
    calculation then treats it as page 1, so that the page the window is
    computed for always lies in [[1, maxPage]]. *)
Theorem pg_clamps_to_max_page (requestedPage totalCount pageSize : Z) :
  1 <= totalCount -> 0 < pageSize ->
  pg totalCount pageSize requestedPage
    = Z.min requestedPage (Z.max 1 (Math_ceil_div totalCount pageSize))
  /\ 1 <= Math_ceil_div totalCount pageSize
  /\ (1 <= requestedPage ->
      1 <= pg totalCount pageSize requestedPage
        <= Z.max 1 (Math_ceil_div totalCount pageSize))
  /\ (requestedPage < 1 ->
      pg totalCount pageSize requestedPage = requestedPage
      /\ generateStartEndRange totalCount pageSize
           (Some (pg totalCount pageSize requestedPage))
         = generateStartEndRange totalCount pageSize (Some 1))
  /\ 1 <= txPaged (Some (pg totalCount pageSize requestedPage)) + 1
       <= Z.max 1 (Math_ceil_div totalCount pageSize).
Proof.
  intros Hcount Hsize.
  pose proof (Math_ceil_div_pos totalCount pageSize Hcount Hsize) as Hmax.
  rewrite pg_min. unfold maxTxPage.
  repeat split; try lia.
  - unfold generateStartEndRange. rewrite !txPaged_some.
    replace (Z.max (Z.min requestedPage (Math_ceil_div totalCount pageSize) - 1) 0)
      with (Z.max (1 - 1) 0) by lia.
    reflexivity.
  - rewrite txPaged_some. lia.
  - rewrite txPaged_some. lia.
Qed.

Lemma pg_clamps_to_max_page_witness :
  pg 45 20 7 = Z.min 7 (Z.max 1 (Math_ceil_div 45 20))
  /\ 1 <= pg 45 20 7 <= 3.
Proof.
  destruct (pg_clamps_to_max_page 7 45 20 ltac:(lia) ltac:(lia))
    as (Hmin & _ & Hrange & _).
  split; [exact Hmin |].
  exact (Hrange ltac:(lia)).
Defined.

(** ** The clamped window *)

(** C4.  For a count of at least 0, a positive page size and a page
    index of at least 1, the window computed for the clamped page
    satisfies [0 <= start <= end <= totalCount]. *)
Theorem clamped_window_within_bounds (totalCount pageSize pageIndex : Z) :
  0 <= totalCount -> 0 < pageSize -> 1 <= pageIndex ->
  0 <= startGatewayTxSeqNumber
         (generateStartEndRange totalCount pageSize
            (Some (pg totalCount pageSize pageIndex)))
    <= endGatewayTxSeqNumber
         (generateStartEndRange totalCount pageSize
            (Some (pg totalCount pageSize pageIndex)))
  /\ endGatewayTxSeqNumber
       (generateStartEndRange totalCount pageSize
          (Some (pg totalCount pageSize pageIndex)))
     <= totalCount.
Proof.
  intros Hcount Hsize Hpage.
  rewrite generateStartEndRange_some.
  cbn [startGatewayTxSeqNumber endGatewayTxSeqNumber].
  rewrite pg_min. unfold maxTxPage.
  pose proof (Math_ceil_div_bounds totalCount pageSize Hsize) as Hceil.
  pose proof (Math_ceil_div_nonneg totalCount pageSize Hcount Hsize) as Hnn.
  set (m := Math_ceil_div totalCount pageSize) in *.
  assert (Hpaged : 0 <= Z.max (Z.min pageIndex m - 1) 0 /\
                   pageSize * Z.max (Z.min pageIndex m - 1) 0 <= totalCount).
  { split; [lia |].
    destruct (Z.max_spec (Z.min pageIndex m - 1) 0) as [[_ ->] | [_ ->]];
      [lia | nia]. }
  destruct Hpaged as [Hp0 Hp1].
  set (k := Z.max (Z.min pageIndex m - 1) 0) in *.
  assert (0 <= pageSize * k) by nia.
  lia.
Qed.

Lemma clamped_window_within_bounds_witness :
  0 <= startGatewayTxSeqNumber
         (generateStartEndRange 45 20 (Some (pg 45 20 3)))
    <= endGatewayTxSeqNumber
         (generateStartEndRange 45 20 (Some (pg 45 20 3)))
  /\ endGatewayTxSeqNumber
       (generateStartEndRange 45 20 (Some (pg 45 20 3)))
     <= 45.
Proof.
  apply (clamped_window_within_bounds 45 20 3); lia.
Defined.

(** C6.  With 45 transactions and pages of 20 the maximum page is 3;
    page 1 gives the window [{start = 25, end = 45}] and page 3 the
    window [{start = 0, end = 5}]. *)
Theorem windows_of_45_by_20 :
  maxTxPage 45 20 = 3
  /\ generateStartEndRange 45 20 (Some (pg 45 20 1))
     = {| startGatewayTxSeqNumber := 25; endGatewayTxSeqNumber := 45 |}
  /\ generateStartEndRange 45 20 (Some (pg 45 20 3))
     = {| startGatewayTxSeqNumber := 0; endGatewayTxSeqNumber := 5 |}
  /\ fst (LatestTxCard (Samples.ledger 45) 20 1)
     = [GetTotalTransactionNumber;
        GetTransactionDigestsInRangeDeprecated 25 45;
        MultiGetTransactions
          (rev (map Samples.digestOf (Samples.seqNumbers 25 45)))]
  /\ filter is_range_request (fst (LatestTxCard (Samples.ledger 45) 20 3))
     = [GetTransactionDigestsInRangeDeprecated 0 5].
Proof. repeat split; vm_compute; reflexivity. Qed.

(** C10.  The window calculation has a value for every input (it is a
    function into [Range], with no failure case).  For a count of at
    least 0 and a positive page size, a page number that is absent, zero
    or negative gives the window of page 1: [end = txCount] and
    [start = max(txCount - txNum, 0)], which is a proper window. *)
Theorem nonpositive_page_is_first_page
  (txCount txNum : Z) (pageNum : option Z) :
  0 <= txCount -> 0 < txNum ->
  pageNum = None \/ (exists p, pageNum = Some p /\ p <= 0) ->
  generateStartEndRange txCount txNum pageNum
    = generateStartEndRange txCount txNum (Some 1)
  /\ generateStartEndRange txCount txNum pageNum
     = {| startGatewayTxSeqNumber := Z.max (txCount - txNum) 0;
          endGatewayTxSeqNumber := txCount |}
  /\ 0 <= startGatewayTxSeqNumber
            (generateStartEndRange txCount txNum pageNum)
       <= endGatewayTxSeqNumber
            (generateStartEndRange txCount txNum pageNum).
Proof.
  intros Hcount Hsize Hpage.
  assert (Hpaged : txPaged pageNum = 0).
  { apply txPaged_first_page.
    destruct Hpage as [-> | (p & -> & Hp)];
      [left; reflexivity | right; exists p; split; [reflexivity | lia]]. }
  unfold generateStartEndRange, Math_max. rewrite Hpaged.
  replace (txPaged (Some 1)) with 0 by reflexivity.
  rewrite Z.mul_0_r, Z.sub_0_r.
  cbn [startGatewayTxSeqNumber endGatewayTxSeqNumber].
  repeat split; lia.
Qed.

Lemma nonpositive_page_is_first_page_witness :
  generateStartEndRange 45 20 (Some (-2))
    = {| startGatewayTxSeqNumber := 25; endGatewayTxSeqNumber := 45 |}
  /\ generateStartEndRange 45 20 None
     = {| startGatewayTxSeqNumber := 25; endGatewayTxSeqNumber := 45 |}.
Proof.
  split.
  - destruct (nonpositive_page_is_first_page 45 20 (Some (-2)))
      as (_ & H & _);
      [lia | lia | right; exists (-2); split; [reflexivity | lia] | exact H].
  - destruct (nonpositive_page_is_first_page 45 20 None)
      as (_ & H & _);
      [lia | lia | left; reflexivity | exact H].
Defined.

(** ** Pausing and resuming the poll *)

Lemma run_paused_ticks (n : nat) :
  run true (repeat IntervalElapsed n) = ([], true).
Proof.
  induction n as [| n IH]; [reflexivity |].
  cbn [repeat run step refetchInterval]. rewrite IH. reflexivity.
Qed.

Lemma run_running_ticks (n : nat) :
  run false (repeat IntervalElapsed n) = (repeat RefetchCount n, false).
Proof.
  induction n as [| n IH]; [reflexivity |].
  cbn [repeat run step refetchInterval]. rewrite IH. reflexivity.
Qed.

Lemma refetches_repeat (n : nat) : refetches (repeat RefetchCount n) = n.
Proof.
  unfold refetches.
  induction n as [| n IH]; [reflexivity |].
  cbn [repeat filter is_refetch List.length]. rewrite IH. reflexivity.
Qed.

(** C9.  Pressing the control while paused refetches the count exactly
    once, first thing, and leaves the card running with the
    ten-second timer on.  Pressing it while running refetches nothing
    and leaves the card paused with the timer off: however many
    intervals elapse afterwards, no count fetch happens (while running,
    [n] elapsed intervals give [n] fetches). *)
Theorem pause_and_resume :
  handlePauseChange true
    = ([RefetchCount;
        ToastSuccess "Auto-refreshing on - every 10 seconds" "auto-refresh"],
       false)
  /\ refetches (fst (handlePauseChange true)) = 1%nat
  /\ refetchInterval (snd (handlePauseChange true)) = Some 10000
  /\ handlePauseChange false
     = ([ToastSuccess "Auto-refresh paused" "auto-refresh"], true)
  /\ refetches (fst (handlePauseChange false)) = 0%nat
  /\ refetchInterval (snd (handlePauseChange false)) = None
  /\ (forall n : nat,
       refetches
         (fst (run false (PlayPauseChange :: repeat IntervalElapsed n)))
       = 0%nat)
  /\ (forall n : nat,
       refetches
         (fst (run true (PlayPauseChange :: repeat IntervalElapsed n)))
       = S n)
  /\ (forall n : nat,
       refetches (fst (run false (repeat IntervalElapsed n))) = n).
Proof.
  repeat split.
  - intros n. cbn [run step handlePauseChange negb].
    rewrite run_paused_ticks. reflexivity.
  - intros n. cbn [run step handlePauseChange negb].
    rewrite run_running_ticks. cbn [fst app refetches filter is_refetch List.length].
    f_equal. apply refetches_repeat.
  - intros n. rewrite run_running_ticks. apply refetches_repeat.
Qed.

End RecentTxCardFacts.

(* ===================================================================== *)
(** * Properties of the owned-objects component *)
(* ===================================================================== *)

Module OwnedObjectsFacts.

Import OwnedObjects.

(** ** Mapping with a callback that may throw *)

Lemma exc_map_inr {A B} (f : A -> Exc B) (l : list A) (bs : list B) :
  exc_map f l = inr bs <-> Forall2 (fun a b => f a = inr b) l bs.
Proof.
  revert bs. induction l as [| a l IH]; intros bs; cbn [exc_map].
  - split.
    + intros H. injection H as <-. constructor.
    + intros H. inversion H. reflexivity.
  - unfold exc_bind. split.
    + destruct (f a) as [e | b] eqn:Hfa; [discriminate |].
      destruct (exc_map f l) as [e | bs'] eqn:Hmap; [discriminate |].
      intros H. injection H as <-.
      constructor; [exact Hfa | apply IH; reflexivity].
    + intros H. inversion H as [| a' b l' bs' Hfa Hrest]; subst.
      rewrite Hfa. apply IH in Hrest. rewrite Hrest. reflexivity.
Qed.

Lemma exc_map_total {A B} (f : A -> Exc B) (l : list A) :
  Forall (fun a => exists b, f a = inr b) l ->
  exists bs, exc_map f l = inr bs.
Proof.
  induction 1 as [| a l [b Hfa] _ [bs Hmap]].
  - exists []. reflexivity.
  - exists (b :: bs). cbn [exc_map]. unfold exc_bind.
    rewrite Hfa, Hmap. reflexivity.
Qed.

Section WithSdk.
Context {Display Content : Type}.
Variable sdk : Helpers Display Content.
Implicit Types rpc : JsonRpcProvider Display Content.
Implicit Types resp : SuiObjectResponse Display Content.

Lemma statusExists_true resp :
  statusExists resp = true <-> status resp = "Exists".
Proof. unfold statusExists. apply String.eqb_eq. Qed.

Lemma filter_statusExists_In resp
  (resps : list (SuiObjectResponse Display Content)) :
  In resp (filter statusExists resps)
  <-> In resp resps /\ status resp = "Exists".
Proof. rewrite filter_In, statusExists_true. reflexivity. Qed.

(** The promise chain, step by step. *)
Lemma load_outcome rpc (id : string) (byAddress : bool) :
  outcome (load sdk rpc id byAddress) =
  match (if byAddress then ownedObjects rpc id else dynamicFields rpc id) with
  | inl fault => inl (Rejected fault)
  | inr objs =>
      match extractIds sdk objs with
      | inl e => inl e
      | inr ids =>
          match objects rpc ids with
          | inl fault => inl (Rejected fault)
          | inr resps => exc_map (toRecord sdk) (filter statusExists resps)
          end
      end
  end.
Proof.
  unfold load, getOwnedObjects, getDynamicFields, multiGetObjects,
    bind, call, lift, outcome.
  destruct byAddress.
  - destruct (ownedObjects rpc id) as [fault | objs]; [reflexivity |].
    destruct (extractIds sdk objs) as [e | ids]; [reflexivity |].
    destruct (objects rpc ids) as [fault | resps]; reflexivity.
  - destruct (dynamicFields rpc id) as [fault | objs]; [reflexivity |].
    destruct (extractIds sdk objs) as [e | ids]; [reflexivity |].
    destruct (objects rpc ids) as [fault | resps]; reflexivity.
Qed.

(** A load rejects exactly when one of its steps fails. *)
Lemma load_rejects_iff rpc (id : string) (byAddress : bool) (e : Error) :
  outcome (load sdk rpc id byAddress) = inl e
  <-> FailsAt sdk rpc id byAddress e.
Proof.
  rewrite load_outcome. split.
  - destruct (if byAddress then ownedObjects rpc id else dynamicFields rpc id)
      as [fault | objs] eqn:Hquery.
    { intros H. injection H as <-. apply FailsAtQuery. exact Hquery. }
    destruct (extractIds sdk objs) as [e' | ids] eqn:Hids.
    { intros H. injection H as <-.
      eapply FailsAtIdExtraction; eassumption. }
    destruct (objects rpc ids) as [fault | resps] eqn:Hget.
    { intros H. injection H as <-.
      eapply FailsAtMultiGet; eassumption. }
    intros H. eapply FailsAtHydration; eassumption.
  - intros [fault Hquery | objs e' Hquery Hids
           | objs ids fault Hquery Hids Hget
           | objs ids resps e' Hquery Hids Hget Hmap].
    + rewrite Hquery. reflexivity.
    + rewrite Hquery, Hids. reflexivity.
    + rewrite Hquery, Hids, Hget. reflexivity.
    + rewrite Hquery, Hids, Hget. exact Hmap.
Qed.

(** Whatever is presented as results is the complete mapped batch. *)
Lemma presented_results_are_complete rpc (id : string) (byAddress : bool)
  (s st : State) (rs : DataType) :
  In st (useEffect sdk rpc id byAddress s) ->
  render st = OwnedObjectView rs ->
  outcome (load sdk rpc id byAddress) = inr rs.
Proof.
  unfold useEffect.
  destruct (outcome (load sdk rpc id byAddress)) as [e | rs'];
    cbn [In]; intros Hin Hview.
  - destruct Hin as [<- | [<- | []]];
      unfold render in Hview; cbn in Hview;
      try discriminate;
      destruct (isFail s); discriminate.
  - destruct Hin as [<- | [<- | [<- | []]]];
      unfold render in Hview; cbn in Hview; try discriminate.
    injection Hview as <-. reflexivity.
Qed.

Lemma useEffect_resolved rpc (id : string) (byAddress : bool)
  (s : State) (rs : DataType) :
  outcome (load sdk rpc id byAddress) = inr rs ->
  loaded sdk rpc id byAddress s
  = {| results := rs; isLoaded := true; isFail := false |}.
Proof.
  intros H. unfold loaded, useEffect. rewrite H. reflexivity.
Qed.

Lemma useEffect_rejected rpc (id : string) (byAddress : bool)
  (s : State) (e : Error) :
  outcome (load sdk rpc id byAddress) = inl e ->
  useEffect sdk rpc id byAddress s
  = [ {| results := results s; isLoaded := false; isFail := false |};
      {| results := results s; isLoaded := false; isFail := true |} ].
Proof.
  intros H. unfold useEffect. rewrite H. reflexivity.
Qed.

(** ** The claims *)

(** C7.  When the id query, the id extraction and the multi-get go
    through, and the helpers do not throw on the entries whose status
    is "Exists", the load ends in the loaded state and its records are
    those of exactly the "Exists" entries of the response, in order:
    every other entry is dropped, whatever the helpers would do on it.
    In particular the response [[Exists; NotFound]] gives one record,
    that of the first entry. *)
Theorem only_existing_objects_are_kept
  rpc (id : string) (byAddress : bool) (s : State)
  (objs : ObjectsResponse Display Content) (ids : list string)
  (resps : list (SuiObjectResponse Display Content)) :
  (if byAddress then ownedObjects rpc id else dynamicFields rpc id)
    = inr objs ->
  extractIds sdk objs = inr ids ->
  objects rpc ids = inr resps ->
  Forall (fun resp =>
            status resp = "Exists" -> exists rec, toRecord sdk resp = inr rec)
         resps ->
  exists recs : DataType,
    loaded sdk rpc id byAddress s
      = {| results := recs; isLoaded := true; isFail := false |}
    /\ render (loaded sdk rpc id byAddress s) = OwnedObjectView recs
    /\ Forall2 (fun resp rec => toRecord sdk resp = inr rec)
               (filter statusExists resps) recs
    /\ (forall resp,
          In resp (filter statusExists resps)
          <-> In resp resps /\ status resp = "Exists")
    /\ (forall e n,
          resps = [e; n] -> status e = "Exists" -> status n = "NotFound" ->
          exists rec, recs = [rec] /\ toRecord sdk e = inr rec).
Proof.
  intros Hquery Hids Hget Hhelpers.
  assert (Hkept : Forall (fun resp => exists rec, toRecord sdk resp = inr rec)
                         (filter statusExists resps)).
  { apply Forall_forall. intros resp Hin.
    apply filter_statusExists_In in Hin. destruct Hin as [Hin Hstatus].
    rewrite Forall_forall in Hhelpers. exact (Hhelpers resp Hin Hstatus). }
  destruct (exc_map_total _ _ Hkept) as [recs Hmap].
  assert (Hload : outcome (load sdk rpc id byAddress) = inr recs).
  { rewrite load_outcome, Hquery, Hids, Hget. exact Hmap. }
  exists recs.
  rewrite (useEffect_resolved _ _ _ s _ Hload).
  split; [reflexivity |]. split; [reflexivity |].
  split; [apply exc_map_inr; exact Hmap |].
  split; [intros resp; apply filter_statusExists_In |].
  intros e n -> He Hn.
  apply exc_map_inr in Hmap.
  cbn [filter] in Hmap. unfold statusExists in Hmap.
  rewrite He, Hn in Hmap. cbn in Hmap.
  inversion Hmap as [| e' rec l' recs' Hrec Hrest]; subst.
  inversion Hrest; subst.
  exists rec. split; [reflexivity | exact Hrec].
Qed.

(** C8.  When any step of the load fails (the id query, the id
    extraction, the multi-get, or the hydration of an entry), the
    promise chain rejects and the component ends in the single fail
    state, showing the failure view; from the moment the effect runs,
    no state of the component shows any result. *)
Theorem any_failure_is_one_fail_state
  rpc (id : string) (byAddress : bool) (s : State) (e : Error) :
  FailsAt sdk rpc id byAddress e ->
  outcome (load sdk rpc id byAddress) = inl e
  /\ loaded sdk rpc id byAddress s
     = {| results := results s; isLoaded := false; isFail := true |}
  /\ render (loaded sdk rpc id byAddress s) = NoOwnedObjects
  /\ Forall (fun st => render st = Loading \/ render st = NoOwnedObjects)
            (useEffect sdk rpc id byAddress s).
Proof.
  intros Hfails. apply load_rejects_iff in Hfails.
  split; [exact Hfails |].
  unfold loaded. rewrite (useEffect_rejected _ _ _ s _ Hfails).
  split; [reflexivity |]. split; [reflexivity |].
  constructor; [left; reflexivity |].
  constructor; [right; reflexivity | constructor].
Qed.

End WithSdk.

(** The response [[Exists; NotFound]], with helpers that throw on the
    entry that is not found. *)
Lemma only_existing_objects_are_kept_witness :
  toRecord Samples.sdk Samples.missing = inl (Thrown "no object data")
  /\ exists recs : DataType,
       loaded Samples.sdk Samples.node "0xowner" true initialState
         = {| results := recs; isLoaded := true; isFail := false |}
       /\ List.length recs = 1%nat.
Proof.
  split; [reflexivity |].
  destruct (only_existing_objects_are_kept
              Samples.sdk Samples.node "0xowner" true initialState
              (PaginatedObjectsResponse [Samples.existing; Samples.missing])
              ["0x1"; "0x2"] [Samples.existing; Samples.missing])
    as (recs & Hloaded & _ & _ & _ & Hscenario).
  - reflexivity.
  - reflexivity.
  - reflexivity.
  - repeat constructor.
    + intros _. eexists. reflexivity.
    + intros Hstatus. discriminate Hstatus.
  - exists recs. split; [exact Hloaded |].
    destruct (Hscenario Samples.existing Samples.missing
                eq_refl eq_refl eq_refl) as (rec & -> & _).
    reflexivity.
Defined.

(** A parent id the node does not know: the first step fails. *)
Lemma any_failure_is_one_fail_state_witness :
  render (loaded Samples.sdk Samples.node "0xparent" false initialState)
  = NoOwnedObjects.
Proof.
  destruct (any_failure_is_one_fail_state
              Samples.sdk Samples.node "0xparent" false initialState
              (Rejected "unknown parent"))
    as (_ & _ & Hview & _).
  - apply FailsAtQuery. reflexivity.
  - exact Hview.
Defined.

End OwnedObjectsFacts.


(* ===================================================================== *)
(** * Further properties of the latest-transactions card *)
(* ===================================================================== *)

Module RecentTxCardExtras.

Import RecentTxCard.
Import RecentTxCardFacts.

(** ** Shape of a window *)

Lemma window_fields (txCount txNum : Z) (pageNum : option Z) :
  endGatewayTxSeqNumber (generateStartEndRange txCount txNum pageNum)
    = txCount - txNum * txPaged pageNum
  /\ startGatewayTxSeqNumber (generateStartEndRange txCount txNum pageNum)
     = Z.max (txCount - txNum * txPaged pageNum - txNum) 0.
Proof. split; reflexivity. Qed.

(** X1.  The start of a window is never negative, and for a page size
    that is not negative a window spans at most [txNum] sequence numbers:
    exactly [txNum] when its end is at least [txNum], fewer otherwise. *)
Theorem window_start_and_span (txCount txNum : Z) (pageNum : option Z) :
  0 <= txNum ->
  0 <= startGatewayTxSeqNumber (generateStartEndRange txCount txNum pageNum)
  /\ endGatewayTxSeqNumber (generateStartEndRange txCount txNum pageNum)
     - startGatewayTxSeqNumber (generateStartEndRange txCount txNum pageNum)
     <= txNum
  /\ (endGatewayTxSeqNumber (generateStartEndRange txCount txNum pageNum)
      - startGatewayTxSeqNumber (generateStartEndRange txCount txNum pageNum)
      = txNum
      <-> txNum
          <= endGatewayTxSeqNumber
               (generateStartEndRange txCount txNum pageNum)).
Proof.
  intros Hsize.
  destruct (window_fields txCount txNum pageNum) as [-> ->].
  lia.
Qed.

Lemma window_start_and_span_witness :
  endGatewayTxSeqNumber (generateStartEndRange 45 20 (Some 3))
  - startGatewayTxSeqNumber (generateStartEndRange 45 20 (Some 3))
  <= 20.
Proof.
  destruct (window_start_and_span 45 20 (Some 3)) as (_ & Hspan & _);
    [lia | exact Hspan].
Defined.

(** X2.  Consecutive pages are contiguous: from page 1 on, the next page
    ends one page size lower, and a page starts where the next page ends
    (at 0 when the next page would end below 0). *)
Theorem consecutive_pages_are_contiguous (txCount txNum page : Z) :
  1 <= page ->
  endGatewayTxSeqNumber (generateStartEndRange txCount txNum (Some (page + 1)))
    = endGatewayTxSeqNumber (generateStartEndRange txCount txNum (Some page))
      - txNum
  /\ startGatewayTxSeqNumber (generateStartEndRange txCount txNum (Some page))
     = Z.max (endGatewayTxSeqNumber
                (generateStartEndRange txCount txNum (Some (page + 1)))) 0.
Proof.
  intros Hpage.
  rewrite !generateStartEndRange_some.
  cbn [startGatewayTxSeqNumber endGatewayTxSeqNumber].
  replace (Z.max (page + 1 - 1) 0) with page by lia.
  replace (Z.max (page - 1) 0) with (page - 1) by lia.
  split; [ring | f_equal; ring].
Qed.

Lemma consecutive_pages_are_contiguous_witness :
  startGatewayTxSeqNumber (generateStartEndRange 45 20 (Some 1))
  = Z.max (endGatewayTxSeqNumber (generateStartEndRange 45 20 (Some 2))) 0.
Proof.
  destruct (consecutive_pages_are_contiguous 45 20 1) as [_ H];
    [lia | exact H].
Defined.

(** X3.  With at least one transaction and a positive page size, the last
    page (page [maxTxPage]) starts at sequence number 0 and holds between
    1 and [txPerPage] transactions. *)
Theorem last_page_reaches_the_oldest (count txPerPage : Z) :
  1 <= count -> 0 < txPerPage ->
  startGatewayTxSeqNumber
    (generateStartEndRange count txPerPage (Some (maxTxPage count txPerPage)))
    = 0
  /\ 1 <= endGatewayTxSeqNumber
            (generateStartEndRange count txPerPage
               (Some (maxTxPage count txPerPage)))
       <= txPerPage.
Proof.
  intros Hcount Hsize.
  rewrite generateStartEndRange_some.
  cbn [startGatewayTxSeqNumber endGatewayTxSeqNumber].
  unfold maxTxPage.
  pose proof (Math_ceil_div_bounds count txPerPage Hsize) as Hceil.
  pose proof (Math_ceil_div_pos count txPerPage Hcount Hsize) as Hpos.
  set (m := Math_ceil_div count txPerPage) in *.
  replace (Z.max (m - 1) 0) with (m - 1) by lia.
  nia.
Qed.

Lemma last_page_reaches_the_oldest_witness :
  startGatewayTxSeqNumber
    (generateStartEndRange 45 20 (Some (maxTxPage 45 20))) = 0.
Proof.
  destruct (last_page_reaches_the_oldest 45 20) as [H _];
    [lia | lia | exact H].
Defined.

(** X4.  With a positive page size, every page before the last one is
    full: it spans exactly [txPerPage] sequence numbers and starts above
    0. *)
Theorem earlier_pages_are_full (count txPerPage page : Z) :
  0 < txPerPage -> 1 <= page < maxTxPage count txPerPage ->
  endGatewayTxSeqNumber (generateStartEndRange count txPerPage (Some page))
  - startGatewayTxSeqNumber (generateStartEndRange count txPerPage (Some page))
  = txPerPage
  /\ 0 < startGatewayTxSeqNumber
           (generateStartEndRange count txPerPage (Some page)).
Proof.
  intros Hsize [Hlow Hhigh].
  rewrite generateStartEndRange_some.
  cbn [startGatewayTxSeqNumber endGatewayTxSeqNumber].
  unfold maxTxPage in Hhigh.
  pose proof (Math_ceil_div_bounds count txPerPage Hsize) as Hceil.
  set (m := Math_ceil_div count txPerPage) in *.
  replace (Z.max (page - 1) 0) with (page - 1) by lia.
  assert (txPerPage * page <= txPerPage * (m - 1)) by nia.
  nia.
Qed.

Lemma earlier_pages_are_full_witness :
  endGatewayTxSeqNumber (generateStartEndRange 45 20 (Some 2))
  - startGatewayTxSeqNumber (generateStartEndRange 45 20 (Some 2))
  = 20.
Proof.
  destruct (earlier_pages_are_full 45 20 2) as [H _];
    [lia | vm_compute; split; [discriminate | reflexivity] | exact H].
Defined.

(** X5.  With a positive page size, every sequence number of the ledger
    lies in the window of exactly one of the pages 1 .. [maxTxPage]. *)
Theorem every_transaction_is_on_one_page (count txPerPage k : Z) :
  0 < txPerPage -> 0 <= k < count ->
  exists page : Z,
    (1 <= page <= maxTxPage count txPerPage
     /\ startGatewayTxSeqNumber
          (generateStartEndRange count txPerPage (Some page)) <= k
        < endGatewayTxSeqNumber
            (generateStartEndRange count txPerPage (Some page)))
    /\ forall other : Z,
         1 <= other <= maxTxPage count txPerPage ->
         startGatewayTxSeqNumber
           (generateStartEndRange count txPerPage (Some other)) <= k
         < endGatewayTxSeqNumber
             (generateStartEndRange count txPerPage (Some other)) ->
         other = page.
Proof.
  intros Hsize Hk.
  pose proof (Math_ceil_div_bounds count txPerPage Hsize) as Hceil.
  pose proof (Math_ceil_div_bounds (count - k) txPerPage Hsize) as Hq.
  unfold maxTxPage.
  set (m := Math_ceil_div count txPerPage) in *.
  set (q := Math_ceil_div (count - k) txPerPage) in *.
  assert (Hq1 : 1 <= q) by nia.
  assert (Hqm : q <= m) by nia.
  exists q. split.
  - split; [lia |].
    rewrite generateStartEndRange_some.
    cbn [startGatewayTxSeqNumber endGatewayTxSeqNumber].
    replace (Z.max (q - 1) 0) with (q - 1) by lia.
    nia.
  - intros other Hother.
    rewrite generateStartEndRange_some.
    cbn [startGatewayTxSeqNumber endGatewayTxSeqNumber].
    replace (Z.max (other - 1) 0) with (other - 1) by lia.
    intros Hin. nia.
Qed.

Lemma every_transaction_is_on_one_page_witness :
  exists page : Z,
    (1 <= page <= maxTxPage 45 20
     /\ startGatewayTxSeqNumber (generateStartEndRange 45 20 (Some page)) <= 7
        < endGatewayTxSeqNumber (generateStartEndRange 45 20 (Some page)))
    /\ forall other : Z,
         1 <= other <= maxTxPage 45 20 ->
         startGatewayTxSeqNumber (generateStartEndRange 45 20 (Some other)) <= 7
         < endGatewayTxSeqNumber (generateStartEndRange 45 20 (Some other)) ->
         other = page.
Proof.
  apply (every_transaction_is_on_one_page 45 20 7); lia.
Defined.

(** ** The clamp *)

(** X6.  Clamping is idempotent, never raises the page index and never
    returns more than the maximum page, for every input. *)
Theorem pg_idempotent (count txPerPage pageIndex : Z) :
  pg count txPerPage (pg count txPerPage pageIndex)
    = pg count txPerPage pageIndex
  /\ pg count txPerPage pageIndex <= pageIndex
  /\ pg count txPerPage pageIndex <= maxTxPage count txPerPage.
Proof. rewrite !pg_min. lia. Qed.

(** ** The page query *)

Lemma clamped_end_positive (count txPerPage pageIndex : Z) :
  1 <= count -> 0 < txPerPage ->
  0 < endGatewayTxSeqNumber
        (generateStartEndRange count txPerPage
           (Some (pg count txPerPage pageIndex)))
    <= count.
Proof.
  intros Hcount Hsize.
  rewrite generateStartEndRange_some. cbn [endGatewayTxSeqNumber].
  rewrite pg_min. unfold maxTxPage.
  pose proof (Math_ceil_div_bounds count txPerPage Hsize) as Hceil.
  pose proof (Math_ceil_div_pos count txPerPage Hcount Hsize) as Hpos.
  set (m := Math_ceil_div count txPerPage) in *.
  destruct (Z.max_spec (Z.min pageIndex m - 1) 0) as [[_ ->] | [Hk ->]];
    [lia |].
  assert (txPerPage * (Z.min pageIndex m - 1) <= txPerPage * (m - 1)) by nia.
  nia.
Qed.

Lemma negative_count_end (count txPerPage pageIndex : Z) :
  count < 0 -> 0 < txPerPage ->
  endGatewayTxSeqNumber
    (generateStartEndRange count txPerPage
       (Some (pg count txPerPage pageIndex)))
  = count.
Proof.
  intros Hcount Hsize.
  rewrite generateStartEndRange_some. cbn [endGatewayTxSeqNumber].
  rewrite pg_min. unfold maxTxPage.
  pose proof (Math_ceil_div_bounds count txPerPage Hsize) as Hceil.
  set (m := Math_ceil_div count txPerPage) in *.
  assert (m <= 0) by nia.
  replace (Z.max (Z.min pageIndex m - 1) 0) with 0 by lia.
  ring.
Qed.

Section WithRecords.
Context {TxnData : Type}.
Implicit Types rpc : JsonRpcProvider TxnData.

Lemma transactionQuery_nonzero rpc (count txPerPage pageIndex : Z) :
  count <> 0 ->
  transactionQuery rpc (Some count) txPerPage pageIndex
  = getRecentTransactions rpc count txPerPage
      (Some (pg count txPerPage pageIndex)).
Proof.
  intros Hcount. unfold transactionQuery.
  destruct (Z.eqb_spec count 0); [contradiction | reflexivity].
Qed.

Lemma getRecentTransactions_first_request rpc totalTx txNum pageNum :
  0 <= endGatewayTxSeqNumber (generateStartEndRange totalTx txNum pageNum) ->
  hd_error (requests (getRecentTransactions rpc totalTx txNum pageNum))
  = Some (GetTransactionDigestsInRangeDeprecated
            (startGatewayTxSeqNumber
               (generateStartEndRange totalTx txNum pageNum))
            (endGatewayTxSeqNumber
               (generateStartEndRange totalTx txNum pageNum))).
Proof.
  intros H. rewrite getRecentTransactions_in_range by exact H.
  unfold getTransactionDigestsInRangeDeprecated, getDataOnTxDigests,
    call, bind, requests.
  destruct (transactionDigestsInRange rpc _ _) as [fault | digests];
    [reflexivity |].
  destruct (multiGetFault rpc (rev digests)); reflexivity.
Qed.

(** X7.  For a count of at least 1, a positive page size and any page
    index at all (zero and negative ones included), the page query first
    sends a digest-range request, and the requested window is not empty,
    lies within the ledger and spans at most one page:
    [0 <= start < end <= count] and [end - start <= txPerPage]. *)
Theorem page_query_requests_a_proper_window
  rpc (count txPerPage pageIndex : Z) :
  1 <= count -> 0 < txPerPage ->
  exists start end_ : Z,
    hd_error (requests (transactionQuery rpc (Some count) txPerPage pageIndex))
      = Some (GetTransactionDigestsInRangeDeprecated start end_)
    /\ 0 <= start < end_
    /\ end_ <= count
    /\ end_ - start <= txPerPage.
Proof.
  intros Hcount Hsize.
  pose proof (clamped_end_positive count txPerPage pageIndex Hcount Hsize)
    as Hend.
  set (page := Some (pg count txPerPage pageIndex)) in *.
  exists (startGatewayTxSeqNumber (generateStartEndRange count txPerPage page)),
         (endGatewayTxSeqNumber (generateStartEndRange count txPerPage page)).
  split.
  - rewrite transactionQuery_nonzero by lia.
    apply getRecentTransactions_first_request. lia.
  - destruct (window_fields count txPerPage page) as [Hfe Hfs].
    rewrite Hfs. rewrite Hfe in Hend |- *. lia.
Qed.

(** X8.  For a positive page size, the page query rejects with the
    out-of-range error "Invalid transaction number" exactly when the count
    is negative, whatever the page index. *)
Theorem out_of_range_only_for_a_negative_count
  rpc (count txPerPage pageIndex : Z) :
  0 < txPerPage ->
  outcome (transactionQuery rpc (Some count) txPerPage pageIndex)
    = inl (Thrown "Invalid transaction number")
  <-> count < 0.
Proof.
  intros Hsize.
  destruct (Z.lt_trichotomy count 0) as [Hneg | [-> | Hpos]].
  - split; [intros _; exact Hneg | intros _].
    rewrite transactionQuery_nonzero by lia.
    rewrite getRecentTransactions_out_of_range; [reflexivity |].
    rewrite negative_count_end by assumption. exact Hneg.
  - split; [| lia]. cbn. intros H. discriminate H.
  - split; [| lia]. intros H. exfalso.
    rewrite transactionQuery_nonzero in H by lia.
    assert (Hend : 0 <= endGatewayTxSeqNumber
                         (generateStartEndRange count txPerPage
                            (Some (pg count txPerPage pageIndex)))).
    { pose proof (clamped_end_positive count txPerPage pageIndex
                    ltac:(lia) Hsize). lia. }
    exact (getRecentTransactions_never_throws_in_range
             rpc count txPerPage _ _ Hend H).
Qed.

(** X9.  When the node rejects the digest-range request, the fetch
    rejects with that fault and nothing more is sent: hydration is not
    attempted. *)
Theorem range_rejection_stops_the_fetch
  rpc (totalTx txNum : Z) (pageNum : option Z) (fault : string) :
  0 <= endGatewayTxSeqNumber (generateStartEndRange totalTx txNum pageNum) ->
  transactionDigestsInRange rpc
    (startGatewayTxSeqNumber (generateStartEndRange totalTx txNum pageNum))
    (endGatewayTxSeqNumber (generateStartEndRange totalTx txNum pageNum))
    = inl fault ->
  getRecentTransactions rpc totalTx txNum pageNum
  = ([GetTransactionDigestsInRangeDeprecated
        (startGatewayTxSeqNumber (generateStartEndRange totalTx txNum pageNum))
        (endGatewayTxSeqNumber (generateStartEndRange totalTx txNum pageNum))],
     inl (Rejected fault)).
Proof.
  intros Hend Hfault.
  rewrite getRecentTransactions_in_range by exact Hend.
  unfold getTransactionDigestsInRangeDeprecated, call, bind.
  rewrite Hfault. reflexivity.
Qed.

(** ** The card *)

(** X10.  When the count request is rejected, the card shows
    "No transactions found." and has sent the count request only: the
    page query fails without sending anything. *)
Theorem failed_count_shows_no_transactions_found
  rpc (txPerPage pageIndex : Z) (fault : string) :
  totalTransactionNumber rpc = inl fault ->
  LatestTxCard rpc txPerPage pageIndex
  = ([GetTotalTransactionNumber], Banner "No transactions found.").
Proof.
  intros Hfault.
  unfold LatestTxCard, getTotalTransactionNumber, call, settled, outcome.
  rewrite Hfault. reflexivity.
Qed.

(** X11.  Whenever the settled card shows rows, the count request was
    answered with a non-zero count and the rows are exactly what the
    fetch for the clamped page of that count resolved to. *)
Theorem shown_rows_come_from_the_clamped_page
  rpc (txPerPage pageIndex : Z) (rows : list TxnData) :
  snd (LatestTxCard rpc txPerPage pageIndex) = TableCard rows ->
  exists count : Z,
    totalTransactionNumber rpc = inr count
    /\ count <> 0
    /\ outcome (getRecentTransactions rpc count txPerPage
                  (Some (pg count txPerPage pageIndex)))
       = inr rows.
Proof.
  unfold LatestTxCard, getTotalTransactionNumber, call, settled, outcome.
  cbn [snd fst].
  destruct (totalTransactionNumber rpc) as [fault | count];
    [intros H; discriminate H |].
  cbn [data]. unfold transactionQuery.
  destruct (Z.eqb_spec count 0) as [-> | Hcount];
    [intros H; discriminate H |].
  intros H. exists count. split; [reflexivity |]. split; [exact Hcount |].
  unfold render, isError in H. cbn [status] in H.
  destruct (snd (getRecentTransactions rpc count txPerPage
                   (Some (pg count txPerPage pageIndex))))
    as [e | rows'] eqn:Houtcome.
  - discriminate H.
  - cbn in H. injection H as ->. reflexivity.
Qed.

End WithRecords.

Lemma page_query_requests_a_proper_window_witness :
  exists start end_ : Z,
    hd_error (requests (transactionQuery (Samples.ledger 45) (Some 45) 20 (-3)))
      = Some (GetTransactionDigestsInRangeDeprecated start end_)
    /\ 0 <= start < end_
    /\ end_ <= 45
    /\ end_ - start <= 20.
Proof.
  apply (page_query_requests_a_proper_window (Samples.ledger 45) 45 20 (-3));
    lia.
Defined.

Lemma out_of_range_only_for_a_negative_count_witness :
  outcome (transactionQuery (Samples.ledger (-5)) (Some (-5)) 20 1)
    = inl (Thrown "Invalid transaction number")
  <-> -5 < 0.
Proof.
  apply (out_of_range_only_for_a_negative_count
           (Samples.ledger (-5)) (-5) 20 1).
  lia.
Defined.

Lemma range_rejection_stops_the_fetch_witness :
  getRecentTransactions (Samples.noRanges 45) 45 20 (Some 1)
  = ([GetTransactionDigestsInRangeDeprecated 25 45],
     inl (Rejected "range unavailable")).
Proof.
  apply (range_rejection_stops_the_fetch
           (Samples.noRanges 45) 45 20 (Some 1) "range unavailable").
  - vm_compute. discriminate.
  - reflexivity.
Defined.

Lemma failed_count_shows_no_transactions_found_witness :
  LatestTxCard Samples.offline 20 1
  = ([GetTotalTransactionNumber], Banner "No transactions found.").
Proof.
  apply (failed_count_shows_no_transactions_found
           Samples.offline 20 1 "network error").
  reflexivity.
Defined.

Lemma shown_rows_come_from_the_clamped_page_witness :
  exists count : Z,
    RecentTxCard.totalTransactionNumber (Samples.ledger 3) = inr count
    /\ count <> 0
    /\ outcome (getRecentTransactions (Samples.ledger 3) count 20
                  (Some (pg count 20 1)))
       = inr ["record of tx2"; "record of tx1"; "record of tx0"].
Proof.
  apply (shown_rows_come_from_the_clamped_page (Samples.ledger 3) 20 1).
  reflexivity.
Defined.

(** ** Pressing play/pause *)

(** X13.  Over any sequence of presses and elapsed intervals, the
    paused flag ends flipped exactly when the number of presses is odd;
    every press raises exactly one toast, under the one id that makes
    toasts replace each other; and no event causes more than one count
    fetch. *)
Theorem run_accounts_for_every_press (paused : bool) (evs : list Event) :
  snd (run paused evs)
    = (if Nat.even (presses evs) then paused else negb paused)
  /\ List.length (filter is_toast (fst (run paused evs))) = presses evs
  /\ (refetches (fst (run paused evs)) <= List.length evs)%nat.
Proof.
  revert paused. unfold presses, refetches.
  induction evs as [| ev evs IH]; intros paused.
  - repeat split; cbn; lia.
  - cbn [run]. destruct ev.
    + cbn [step handlePauseChange filter is_press List.length].
      destruct (IH (negb paused)) as (Hstate & Htoasts & Hfetches).
      destruct (run (negb paused) evs) as [outs final].
      cbn [fst snd] in *.
      rewrite Nat.even_succ, <- Nat.negb_even.
      rewrite !filter_app, !length_app.
      split; [| split].
      * rewrite Hstate.
        destruct (Nat.even _), paused; reflexivity.
      * rewrite Htoasts. destruct paused; reflexivity.
      * destruct paused; cbn; lia.
    + cbn [step filter is_press].
      destruct (IH paused) as (Hstate & Htoasts & Hfetches).
      destruct (run paused evs) as [outs final].
      cbn [fst snd] in *.
      rewrite !filter_app, !length_app.
      split; [exact Hstate | split].
      * rewrite Htoasts. destruct paused; reflexivity.
      * destruct paused; cbn; lia.
Qed.

End RecentTxCardExtras.



(* ===================================================================== *)
(** * Further properties of the owned-objects component *)
(* ===================================================================== *)

Module OwnedObjectsExtras.

Import OwnedObjects.
Import OwnedObjectsFacts.

Section WithSdk.
Context {Display Content : Type}.
Variable sdk : Helpers Display Content.
Implicit Types rpc : JsonRpcProvider Display Content.
Implicit Types resp : SuiObjectResponse Display Content.

(** X14.  A load sends the id query that matches [byAddress] (never the
    other one) and then at most one multi-get, which asks for type,
    content and display of exactly the extracted ids; the multi-get is
    sent only if the id query resolved and the ids could be extracted. *)
Theorem load_requests rpc (id : string) (byAddress : bool) :
  requests (load sdk rpc id byAddress)
  = (if byAddress then GetOwnedObjects id else GetDynamicFields id)
    :: match (if byAddress then ownedObjects rpc id else dynamicFields rpc id)
       with
       | inl _ => []
       | inr objs =>
           match extractIds sdk objs with
           | inl _ => []
           | inr ids => [MultiGetObjects ids true true true]
           end
       end.
Proof.
  unfold load, getOwnedObjects, getDynamicFields, multiGetObjects,
    bind, call, lift, requests.
  destruct byAddress.
  - destruct (ownedObjects rpc id) as [fault | objs]; [reflexivity |].
    destruct (extractIds sdk objs) as [e | ids]; [reflexivity |].
    destruct (objects rpc ids) as [fault | resps]; reflexivity.
  - destruct (dynamicFields rpc id) as [fault | objs]; [reflexivity |].
    destruct (extractIds sdk objs) as [e | ids]; [reflexivity |].
    destruct (objects rpc ids) as [fault | resps]; reflexivity.
Qed.

Lemma filter_statusExists_none
  (resps : list (SuiObjectResponse Display Content)) :
  Forall (fun resp => status resp <> "Exists") resps ->
  filter statusExists resps = [].
Proof.
  induction 1 as [| resp resps Hresp _ IH]; [reflexivity |].
  cbn [filter].
  destruct (statusExists resp) eqn:Hexists; [| exact IH].
  apply statusExists_true in Hexists. contradiction.
Qed.

(** X15.  When the multi-get answers but none of its entries has status
    "Exists" (an empty answer included), the load succeeds with no
    record: the component shows the object view with an empty list, not
    the failure view, whatever the helpers would do on those entries. *)
Theorem nothing_existing_loads_an_empty_list
  rpc (id : string) (byAddress : bool) (s : State)
  (objs : ObjectsResponse Display Content) (ids : list string)
  (resps : list (SuiObjectResponse Display Content)) :
  (if byAddress then ownedObjects rpc id else dynamicFields rpc id)
    = inr objs ->
  extractIds sdk objs = inr ids ->
  objects rpc ids = inr resps ->
  Forall (fun resp => status resp <> "Exists") resps ->
  loaded sdk rpc id byAddress s
    = {| results := []; isLoaded := true; isFail := false |}
  /\ render (loaded sdk rpc id byAddress s) = OwnedObjectView [].
Proof.
  intros Hquery Hids Hget Hnone.
  assert (Hload : outcome (load sdk rpc id byAddress) = inr []).
  { rewrite load_outcome, Hquery, Hids, Hget.
    rewrite (filter_statusExists_none _ Hnone). reflexivity. }
  rewrite (useEffect_resolved sdk _ _ _ s _ Hload).
  split; reflexivity.
Qed.

End WithSdk.

Lemma nothing_existing_loads_an_empty_list_witness :
  render (loaded Samples.throwingSdk Samples.graveyard "0xparent" false
            initialState)
  = OwnedObjectView [].
Proof.
  destruct (nothing_existing_loads_an_empty_list
              Samples.throwingSdk Samples.graveyard "0xparent" false
              initialState
              (DynamicFieldPage [ {| objectId := "0x2" |};
                                  {| objectId := "0x3" |} ])
              ["0x2"; "0x3"]
              [ {| status := "NotFound"; details := DetailsPrimitive "0x2" |};
                {| status := "NotFound"; details := DetailsPrimitive "0x3" |} ])
    as [_ Hview].
  - reflexivity.
  - reflexivity.
  - reflexivity.
  - repeat constructor; discriminate.
  - exact Hview.
Defined.

End OwnedObjectsExtras.
